(** * Relationship-consistent CRUD: the one-to-many and the one-to-one services

    A shallow embedding of [one_to_many.py] (User / Order) and of
    [one_to_one.py] (User / Profile).

    Each handler is a function from the committed content of the database
    (and the request's arguments) to the content after the request and the
    outcome the client sees.  The session opened by [get_db] lives for one
    request, is created with [autoflush=False] and is closed without commit
    when the handler raises, so what a handler leaves in the store is what
    its [db.commit()] calls wrote.

    A table is the list of its rows in rowid order.  Integers are Python's
    unbounded integers ([Z]); strings are [string]; [price] is a binary64
    float.  The ORM and schema constructs the handlers rely on are modelled
    where they are used:
    - [query(...).filter(...).first()] is the first matching row or [None];
      [query(...).all()] is always a list;
    - an [Integer] primary key left out of an insert gets one more than the
      largest key of the table (1 on an empty table);
    - [unique=True] columns reject a second equal value ([IntegrityError]);
    - [db.delete(parent)] deletes the children of a relationship declared
      with [cascade="all, delete-orphan"] and, without a delete cascade,
      de-associates the loaded child by clearing its foreign key;
    - a pydantic field annotated [str] / [int] without a default is required
      and does not accept [None] ([ValidationError]);
    - a route with [response_model=M] validates what the handler returns
      against [M], reading attributes when [orm_mode] is set; a route with
      no response model encodes the loaded attributes of what is returned. *)

From Stdlib Require Import ZArith List String Bool Lia Floats DecimalString.
Import ListNotations.
Open Scope string_scope.
Open Scope list_scope.
Open Scope Z_scope.

(** ** What a request can end in *)

Inductive exception : Type :=
| HTTPException (status_code : Z) (detail : string)
| AttributeError      (* attribute access on [None] *)
| ValidationError     (* pydantic: missing field, or [None] for a plain type *)
| IntegrityError.     (* storage: a UNIQUE constraint failed *)

Inductive outcome (A : Type) : Type :=
| Return (a : A)
| Raise (e : exception).

Arguments Return {A} a.
Arguments Raise {A} e.

Definition bind {A B : Type} (m : outcome A) (k : A -> outcome B) : outcome B :=
  match m with
  | Return a => k a
  | Raise e => Raise e
  end.

Notation "'let*' x ':=' m 'in' k" := (bind m (fun x => k))
  (at level 10, x name, m at level 100, k at level 200).

(** A list comprehension (or a [for] loop) whose body may raise: elements are
    handled left to right and the first exception ends the evaluation. *)
Fixpoint for_each {A B : Type} (f : A -> outcome B) (l : list A)
  : outcome (list B) :=
  match l with
  | [] => Return []
  | x :: r =>
      let* y := f x in
      let* ys := for_each f r in
      Return (y :: ys)
  end.

(** ** The query layer *)

(** [Query.first()]: the first row of the result, or [None]. *)
Definition first {A : Type} (rows : list A) : option A := hd_error rows.

(** [Query.all()]: the list of all rows.  The result is typed as a nullable
    reference because two handlers compare it with [None]; the function
    itself never produces [None]. *)
Definition all {A : Type} (rows : list A) : option (list A) := Some rows.

(** The key given to a row inserted without one. *)
Definition next_id (ids : list Z) : Z :=
  match ids with
  | [] => 1
  | i :: r => fold_left Z.max r i + 1
  end.

(** [f"{n}"] for an integer. *)
Definition format_int (n : Z) : string := NilZero.string_of_int (Z.to_int n).

(** [column == b] on a nullable integer column: NULL matches nothing. *)
Definition option_Z_eqb (a : option Z) (b : Z) : bool :=
  match a with
  | Some x => x =? b
  | None => false
  end.

(** ** one_to_many.py *)

Module OneToMany.

(** *** Models *)

Record User : Type := mkUser {
  User_id : Z;
  User_username : string;
  User_email : string
}.

Record Order : Type := mkOrder {
  Order_id : Z;
  Order_product_name : string;
  Order_quantity : Z;
  Order_price : float;
  Order_user_id : Z
}.

Record db : Type := mkDb {
  users : list User;
  orders : list Order
}.

Definition empty : db := {| users := []; orders := [] |}.

(** [User.orders]: the orders whose foreign key is the user's id. *)
Definition User_orders (s : db) (u : User) : list Order :=
  filter (fun o => Order_user_id o =? User_id u) (orders s).

(** [Order.user]: the user the foreign key points at, or [None]. *)
Definition Order_user (s : db) (o : Order) : option User :=
  first (filter (fun u => User_id u =? Order_user_id o) (users s)).

(** *** Schemas *)

Record OrderCreate : Type := mkOrderCreate {
  OrderCreate_product_name : string;
  OrderCreate_quantity : Z;
  OrderCreate_price : float
}.

Record OrderResponse : Type := mkOrderResponse {
  OrderResponse_product_name : string;
  OrderResponse_quantity : Z;
  OrderResponse_price : float;
  OrderResponse_id : Z;
  OrderResponse_user_id : Z;
  OrderResponse_username : string
}.

Record UserResponse : Type := mkUserResponse {
  UserResponse_username : string;
  UserResponse_email : string;
  UserResponse_id : Z;
  UserResponse_orders : list OrderResponse
}.

(** What a handler hands to the response layer for an order: the columns
    of the row and, when the handler supplied one, a [username] (the
    [Order] model itself has no such attribute). *)
Record order_object : Type := mkOrderObject {
  columns : Order;
  attr_username : option string
}.

Definition loaded (o : Order) : order_object :=
  {| columns := o; attr_username := None |}.

(** Validation against [OrderResponse]: [username] is required. *)
Definition validate_OrderResponse (x : order_object) : outcome OrderResponse :=
  match attr_username x with
  | None => Raise ValidationError
  | Some n =>
      Return {| OrderResponse_product_name := Order_product_name (columns x);
                OrderResponse_quantity := Order_quantity (columns x);
                OrderResponse_price := Order_price (columns x);
                OrderResponse_id := Order_id (columns x);
                OrderResponse_user_id := Order_user_id (columns x);
                OrderResponse_username := n |}
  end.

(** Validation against [UserResponse] in [orm_mode]: reads [orders]
    through the relationship and validates each element. *)
Definition validate_UserResponse (s : db) (u : User) : outcome UserResponse :=
  let* os := for_each validate_OrderResponse (map loaded (User_orders s u)) in
  Return {| UserResponse_username := User_username u;
            UserResponse_email := User_email u;
            UserResponse_id := User_id u;
            UserResponse_orders := os |}.

(** The payload of a route without a response model: the loaded
    attributes of a [User].  [orders] is present only if the handler
    touched the relationship. *)
Record user_payload : Type := mkUserPayload {
  payload_id : Z;
  payload_username : string;
  payload_email : string;
  payload_orders : option (list Order)
}.

Definition encode_loaded (u : User) : user_payload :=
  {| payload_id := User_id u;
     payload_username := User_username u;
     payload_email := User_email u;
     payload_orders := None |}.

Record detail_message : Type := mkDetail { detail : string }.

(** *** Handlers *)

(** [db.query(User).filter(User.id == user_id).first()] *)
Definition find_user (s : db) (user_id : Z) : option User :=
  first (filter (fun u => User_id u =? user_id) (users s)).

(** [db.query(Order).filter(Order.id == order_id).first()] *)
Definition find_order (s : db) (order_id : Z) : option Order :=
  first (filter (fun o => Order_id o =? order_id) (orders s)).

(** POST /users/ ([response_model=UserResponse]); [username] and [email]
    are unique columns. *)
Definition create_user (s : db) (username email : string)
  : db * outcome UserResponse :=
  if existsb (fun u => (User_username u =? username)%string
                       || (User_email u =? email)%string) (users s)
  then (s, Raise IntegrityError)
  else
    let db_user := {| User_id := next_id (map User_id (users s));
                      User_username := username;
                      User_email := email |} in
    let s' := {| users := users s ++ [db_user]; orders := orders s |} in
    (s', validate_UserResponse s' db_user).

(** GET /users/{user_id} ([response_model=UserResponse]) *)
Definition read_user (s : db) (user_id : Z) : outcome UserResponse :=
  match find_user s user_id with
  | None => Raise (HTTPException 404 "User not found")
  | Some user => validate_UserResponse s user
  end.

(** DELETE /users/{user_id} : [db.delete(user)] loads [user.orders], deletes
    each of them by primary key (the cascade), then deletes the user. *)
Definition delete_user (s : db) (user_id : Z) : db * outcome detail_message :=
  match find_user s user_id with
  | None => (s, Raise (HTTPException 404 "User not found"))
  | Some user =>
      let children := User_orders s user in
      let s' :=
        {| users := filter (fun u => negb (User_id u =? User_id user)) (users s);
           orders := filter (fun o => negb (existsb (fun c => Order_id c =? Order_id o)
                                                    children)) (orders s) |} in
      (s', Return {| detail := ("User with ID " ++ format_int user_id
                                ++ " has been deleted successfully")%string |})
  end.

(** POST /users/{user_id}/orders/ ([response_model=OrderResponse]); the
    handler returns [db_order] as refreshed from the table. *)
Definition create_order_for_user (s : db) (user_id : Z) (order : OrderCreate)
  : db * outcome OrderResponse :=
  match find_user s user_id with
  | None => (s, Raise (HTTPException 404 "User not found"))
  | Some user =>
      let db_order := {| Order_id := next_id (map Order_id (orders s));
                         Order_product_name := OrderCreate_product_name order;
                         Order_quantity := OrderCreate_quantity order;
                         Order_price := OrderCreate_price order;
                         Order_user_id := user_id |} in
      let s' := {| users := users s; orders := orders s ++ [db_order] |} in
      (s', validate_OrderResponse (loaded db_order))
  end.


(** GET /orders (the second function the source names [read_order];
    [response_model=List[OrderResponse]]); the loop sets [i.username] on
    every order before the list is returned. *)
Definition read_order_list (s : db) : outcome (list OrderResponse) :=
  match all (orders s) with
  | None => Raise (HTTPException 404 "Order not found")
  | Some order =>
      let* order' :=
        for_each (fun i =>
                    match Order_user s i with
                    | None => Raise AttributeError
                    | Some user =>
                        Return {| columns := i;
                                  attr_username := Some (User_username user) |}
                    end) order in
      for_each validate_OrderResponse order'
  end.

(** GET /users/ ([response_model] is commented out in the decorator) *)
Definition read_users (s : db) : outcome (list user_payload) :=
  let users := users s in
  Return (map encode_loaded users).

(** *** Requests that write, and the stores they lead to *)

Inductive request : Type :=
| POST_users (username email : string)
| DELETE_users (user_id : Z)
| POST_users_orders (user_id : Z) (order : OrderCreate).

Definition handle (s : db) (r : request) : db :=
  match r with
  | POST_users username email => fst (create_user s username email)
  | DELETE_users user_id => fst (delete_user s user_id)
  | POST_users_orders user_id order => fst (create_order_for_user s user_id order)
  end.

Definition run (rs : list request) : db := fold_left handle rs empty.

Definition reachable (s : db) : Prop := exists rs, s = run rs.

(** Primary keys are keys, and every order points at a stored user. *)
Record db_ok (s : db) : Prop := mkDbOk {
  users_pk : NoDup (map User_id (users s));
  orders_pk : NoDup (map Order_id (orders s));
  orders_fk : forall o, In o (orders s) ->
                        In (Order_user_id o) (map User_id (users s))
}.


(** [username] and [email] are unique columns. *)
Record names_unique (s : db) : Prop := mkNamesUnique {
  usernames_unique : NoDup (map User_username (users s));
  emails_unique : NoDup (map User_email (users s))
}.

(** *** Sample stores *)

Definition book : OrderCreate :=
  {| OrderCreate_product_name := "Book";
     OrderCreate_quantity := 2;
     OrderCreate_price := 9.75%float |}.

Definition alice_with_book : db :=
  run [POST_users "alice" "a@x.com"; POST_users_orders 1 book].

End OneToMany.

(** ** one_to_one.py *)

Module OneToOne.

(** *** Models *)

Record User : Type := mkUser {
  User_id : Z;
  User_name : string
}.

(** [bio] and [user_id] are nullable columns. *)
Record Profile : Type := mkProfile {
  Profile_id : Z;
  Profile_bio : option string;
  Profile_user_id : option Z
}.

Record db : Type := mkDb {
  users : list User;
  profiles : list Profile
}.

Definition empty : db := {| users := []; profiles := [] |}.

(** [User.profile] ([uselist=False]): the profile whose foreign key is the
    user's id, or [None]. *)
Definition User_profile (s : db) (u : User) : option Profile :=
  first (filter (fun p => option_Z_eqb (Profile_user_id p) (User_id u))
                (profiles s)).

(** *** Schemas *)

Record UserCreate : Type := mkUserCreate {
  UserCreate_name : string;
  UserCreate_bio : string
}.

Record UserResponse : Type := mkUserResponse {
  UserResponse_id : Z;
  UserResponse_name : string;
  UserResponse_bio : string;
  UserResponse_company : string
}.

(** [UserResponse(id=..., name=..., bio=...)]: [bio: str] rejects [None];
    [company] is never passed and takes its default. *)
Definition UserResponse_init (id : Z) (name : string) (bio : option string)
  : outcome UserResponse :=
  match bio with
  | None => Raise ValidationError
  | Some b =>
      Return {| UserResponse_id := id;
                UserResponse_name := name;
                UserResponse_bio := b;
                UserResponse_company := "Bharat Pvt" |}
  end.

Record ProfileCreate : Type := mkProfileCreate {
  ProfileCreate_bio : string;
  ProfileCreate_user_id : Z
}.

Record ProfileResponse : Type := mkProfileResponse {
  ProfileResponse_id : Z;
  ProfileResponse_bio : string;
  ProfileResponse_user_id : Z
}.

(** Validation against [ProfileResponse]: [bio: str], [user_id: int]. *)
Definition validate_ProfileResponse (p : Profile) : outcome ProfileResponse :=
  match Profile_bio p, Profile_user_id p with
  | Some b, Some u =>
      Return {| ProfileResponse_id := Profile_id p;
                ProfileResponse_bio := b;
                ProfileResponse_user_id := u |}
  | _, _ => Raise ValidationError
  end.

Record message_body : Type := mkMessage { message : string }.

(** *** Handlers *)

(** [db.query(User).filter(User.id == user_id).first()] *)
Definition find_user (s : db) (user_id : Z) : option User :=
  first (filter (fun u => User_id u =? user_id) (users s)).

(** [db.query(Profile).filter(Profile.id == profile_id).first()] *)
Definition find_profile (s : db) (profile_id : Z) : option Profile :=
  first (filter (fun p => Profile_id p =? profile_id) (profiles s)).

(** [db.query(Profile).filter(Profile.user_id == user_id).first()] *)
Definition find_profile_of (s : db) (user_id : Z) : option Profile :=
  first (filter (fun p => option_Z_eqb (Profile_user_id p) user_id) (profiles s)).

(** POST /users/ : two inserts, each with its own commit. *)
Definition create_user (s : db) (user : UserCreate) : db * outcome UserResponse :=
  let db_user := {| User_id := next_id (map User_id (users s));
                    User_name := UserCreate_name user |} in
  let s1 := {| users := users s ++ [db_user]; profiles := profiles s |} in
  if existsb (fun p => option_Z_eqb (Profile_user_id p) (User_id db_user))
             (profiles s1)
  then (s1, Raise IntegrityError)
  else
    let db_profile := {| Profile_id := next_id (map Profile_id (profiles s1));
                         Profile_bio := Some (UserCreate_bio user);
                         Profile_user_id := Some (User_id db_user) |} in
    let s2 := {| users := users s1; profiles := profiles s1 ++ [db_profile] |} in
    (s2, UserResponse_init (User_id db_user) (User_name db_user)
                           (Profile_bio db_profile)).

(** GET /users *)
Definition read_users (s : db) : outcome (list UserResponse) :=
  let users := users s in
  for_each (fun user =>
              UserResponse_init (User_id user) (User_name user)
                match User_profile s user with
                | Some profile => Profile_bio profile
                | None => None
                end) users.

(** GET /users/{user_id} *)
Definition read_user (s : db) (user_id : Z) : outcome UserResponse :=
  match find_user s user_id with
  | None => Raise (HTTPException 404 "User not found")
  | Some user =>
      match User_profile s user with
      | Some profile =>
          UserResponse_init (User_id user) (User_name user) (Profile_bio profile)
      | None => Raise (HTTPException 404 "Profile not found")
      end
  end.

(** An instance after [user.name = ...] / [profile.bio = ...]. *)
Definition set_name (u : User) (name : string) : User :=
  {| User_id := User_id u; User_name := name |}.

Definition set_bio (p : Profile) (bio : option string) : Profile :=
  {| Profile_id := Profile_id p;
     Profile_bio := bio;
     Profile_user_id := Profile_user_id p |}.

(** PUT /users/{user_id} : neither query result is tested before its
    attribute is assigned.  The commit updates the two rows by primary key. *)
Definition update_user (s : db) (user_id : Z) (payload : UserCreate)
  : db * outcome UserResponse :=
  match find_user s user_id with
  | None => (s, Raise AttributeError)
  | Some user =>
      let user' := set_name user (UserCreate_name payload) in
      match find_profile_of s user_id with
      | None => (s, Raise AttributeError)
      | Some profile =>
          let profile' := set_bio profile (Some (UserCreate_bio payload)) in
          let s' :=
            {| users := map (fun u => if User_id u =? User_id user'
                                      then set_name u (User_name user')
                                      else u) (users s);
               profiles := map (fun p => if Profile_id p =? Profile_id profile'
                                         then set_bio p (Profile_bio profile')
                                         else p) (profiles s) |} in
          (s', UserResponse_init (User_id user') (User_name user')
                                 (Profile_bio profile'))
      end
  end.

(** What the unit of work does to a child that has no delete cascade. *)
Definition dissociate (p : Profile) : Profile :=
  {| Profile_id := Profile_id p;
     Profile_bio := Profile_bio p;
     Profile_user_id := None |}.

(** DELETE /users/{user_id} : [User.profile] has no delete cascade, so
    [db.delete(user)] loads [user.profile], clears that row's [user_id] by
    primary key, then deletes the user. *)
Definition delete_user (s : db) (user_id : Z) : db * outcome message_body :=
  match find_user s user_id with
  | None => (s, Raise (HTTPException 404 "User not found"))
  | Some user =>
      let profiles' :=
        match User_profile s user with
        | None => profiles s
        | Some child =>
            map (fun p => if Profile_id p =? Profile_id child
                          then dissociate p else p) (profiles s)
        end in
      let s' :=
        {| users := filter (fun u => negb (User_id u =? User_id user)) (users s);
           profiles := profiles' |} in
      (s', Return {| message := "User has been deleted" |})
  end.

(** POST /profiles/ ([response_model=ProfileResponse]); [user_id] is a
    unique column. *)
Definition create_profile (s : db) (profile : ProfileCreate)
  : db * outcome ProfileResponse :=
  match find_user s (ProfileCreate_user_id profile) with
  | None => (s, Raise (HTTPException 404 "User not found"))
  | Some user =>
      if existsb (fun p => option_Z_eqb (Profile_user_id p)
                                        (ProfileCreate_user_id profile))
                 (profiles s)
      then (s, Raise IntegrityError)
      else
        let db_profile := {| Profile_id := next_id (map Profile_id (profiles s));
                             Profile_bio := Some (ProfileCreate_bio profile);
                             Profile_user_id := Some (ProfileCreate_user_id profile) |} in
        let s' := {| users := users s; profiles := profiles s ++ [db_profile] |} in
        (s', validate_ProfileResponse db_profile)
  end.

(** GET /profiles/{profile_id} *)
Definition read_profile (s : db) (profile_id : Z) : outcome ProfileResponse :=
  match find_profile s profile_id with
  | None => Raise (HTTPException 404 "Profile not found")
  | Some profile => validate_ProfileResponse profile
  end.

(** GET /profiles (the two [print] calls write to the server's console) *)
Definition read_all_profile (s : db) : outcome (list ProfileResponse) :=
  match all (profiles s) with
  | None => Raise (HTTPException 404 "Profile not found")
  | Some profile => for_each validate_ProfileResponse profile
  end.

(** GET /profiles1 : here the test is on the list being empty. *)
Definition read_all_profile1 (s : db) : outcome (list ProfileResponse) :=
  match all (profiles s) with
  | Some [] | None => Raise (HTTPException 404 "No profiles found")
  | Some profiles => for_each validate_ProfileResponse profiles
  end.

(** *** Requests that write, and the stores they lead to *)

Inductive request : Type :=
| POST_users (user : UserCreate)
| PUT_users (user_id : Z) (payload : UserCreate)
| DELETE_users (user_id : Z)
| POST_profiles (profile : ProfileCreate).

Definition handle (s : db) (r : request) : db :=
  match r with
  | POST_users user => fst (create_user s user)
  | PUT_users user_id payload => fst (update_user s user_id payload)
  | DELETE_users user_id => fst (delete_user s user_id)
  | POST_profiles profile => fst (create_profile s profile)
  end.

Definition run (rs : list request) : db := fold_left handle rs empty.

Definition reachable (s : db) : Prop := exists rs, s = run rs.

(** The user ids the profile table refers to. *)
Definition references (ps : list Profile) : list Z :=
  flat_map (fun p => match Profile_user_id p with
                     | Some i => [i]
                     | None => []
                     end) ps.

(** Primary keys are keys, [Profile.user_id] is unique where it is not
    null, and it points at a stored user. *)
Record db_ok (s : db) : Prop := mkDbOk {
  users_pk : NoDup (map User_id (users s));
  profiles_pk : NoDup (map Profile_id (profiles s));
  profiles_unique : NoDup (references (profiles s));
  profiles_fk : incl (references (profiles s)) (map User_id (users s))
}.

(** Every user has a profile, and every profile has a bio. *)
Record db_full (s : db) : Prop := mkDbFull {
  full_ok : db_ok s;
  users_have_profile : incl (map User_id (users s)) (references (profiles s));
  bios_present : forall p, In p (profiles s) -> Profile_bio p <> None
}.

(** A profile row once the user [user_id] has been deleted. *)
Definition without_reference (user_id : Z) (p : Profile) : Profile :=
  if option_Z_eqb (Profile_user_id p) user_id then dissociate p else p.

(** *** Sample stores *)

Definition bob : UserCreate :=
  {| UserCreate_name := "bob"; UserCreate_bio := "hi" |}.

Definition bob_created : db := run [POST_users bob].

Definition bob_without_profile : db :=
  {| users := [ {| User_id := 1; User_name := "bob" |} ]; profiles := [] |}.

End OneToOne.

(** * Properties *)

(** ** The query layer *)

Section QueryFacts.
Context {A : Type}.
Implicit Types (p : A -> bool) (rows : list A).

Lemma first_filter_Some p rows x :
  first (filter p rows) = Some x -> In x rows /\ p x = true.
Proof.
  unfold first. induction rows as [|y r IH]; simpl; [discriminate|].
  destruct (p y) eqn:Hy; simpl.
  - intros [= ->]. auto.
  - intros H. destruct (IH H). auto.
Qed.

Lemma first_filter_None p rows :
  first (filter p rows) = None <-> (forall x, In x rows -> p x = false).
Proof.
  unfold first. induction rows as [|y r IH]; simpl.
  - split; [intros _ x []|reflexivity].
  - destruct (p y) eqn:Hy; simpl.
    + split; [discriminate|]. intros H. rewrite (H y) in Hy by auto. discriminate.
    + rewrite IH. split.
      * intros H x [<-|Hx]; auto.
      * intros H x Hx. auto.
Qed.

Lemma first_filter_app_new p rows x :
  first (filter p rows) = None -> p x = true ->
  first (filter p (rows ++ [x])) = Some x.
Proof.
  unfold first. intros Hn Hx. rewrite filter_app. simpl. rewrite Hx.
  destruct (filter p rows); [reflexivity|discriminate].
Qed.

Lemma first_filter_app_old p rows x y :
  first (filter p rows) = Some y ->
  first (filter p (rows ++ [x])) = Some y.
Proof.
  unfold first. intros Hy. rewrite filter_app.
  destruct (filter p rows); [discriminate|exact Hy].
Qed.

(** With a key on the table, the row found for a stored row's key is that
    row. *)
Lemma first_filter_key (key : A -> Z) rows x :
  NoDup (map key rows) -> In x rows ->
  first (filter (fun y => key y =? key x) rows) = Some x.
Proof.
  unfold first. induction rows as [|y r IH]; simpl; [intros _ []|].
  intros Hnd Hin. inversion Hnd as [|k ks Hk Hr]; subst.
  destruct Hin as [->|Hin].
  - rewrite Z.eqb_refl. reflexivity.
  - destruct (Z.eqb_spec (key y) (key x)) as [E|_]; [|auto].
    exfalso. apply Hk. rewrite E. apply in_map. exact Hin.
Qed.

Lemma all_is_a_list rows : all rows <> None.
Proof. discriminate. Qed.

End QueryFacts.

Lemma fold_max_ge (l : list Z) (a : Z) : a <= fold_left Z.max l a.
Proof.
  revert a. induction l as [|x r IH]; simpl; intros a; [lia|].
  specialize (IH (Z.max a x)). lia.
Qed.

Lemma fold_max_In (l : list Z) (a i : Z) : In i l -> i <= fold_left Z.max l a.
Proof.
  revert a. induction l as [|x r IH]; simpl; intros a; [intros []|].
  intros [->|Hi]; [|auto].
  pose proof (fold_max_ge r (Z.max a i)). lia.
Qed.

(** A new key is above every key of the table. *)
Lemma next_id_above (ids : list Z) (i : Z) : In i ids -> i < next_id ids.
Proof.
  destruct ids as [|a r]; simpl; [intros []|].
  intros [->|Hi].
  - pose proof (fold_max_ge r i). lia.
  - pose proof (fold_max_In r a i Hi). lia.
Qed.

Lemma next_id_fresh (ids : list Z) : ~ In (next_id ids) ids.
Proof. intros H. apply next_id_above in H. lia. Qed.

(** ** Loops that may raise *)

Section ForEachFacts.
Context {A B : Type}.
Implicit Types (f : A -> outcome B) (g : A -> B) (l : list A).

Lemma for_each_Return f g l :
  (forall x, In x l -> f x = Return (g x)) ->
  for_each f l = Return (map g l).
Proof.
  induction l as [|x r IH]; simpl; intros H; [reflexivity|].
  rewrite (H x) by auto. simpl. rewrite IH by auto. reflexivity.
Qed.

(** When every failure is the same exception and some element fails, the
    loop raises that exception. *)
Lemma for_each_Raise f e l x :
  In x l -> f x = Raise e ->
  (forall y e', In y l -> f y = Raise e' -> e' = e) ->
  for_each f l = Raise e.
Proof.
  induction l as [|y r IH]; simpl; [intros []|].
  intros Hin Hx Hall. destruct (f y) as [b|e'] eqn:Hy; simpl.
  - destruct Hin as [->|Hin]; [congruence|].
    rewrite IH; [reflexivity|assumption..|].
    intros z e' Hz. apply Hall. right. exact Hz.
  - f_equal. apply (Hall y); [left; reflexivity|exact Hy].
Qed.

Lemma for_each_exception f l e :
  for_each f l = Raise e -> exists x, In x l /\ f x = Raise e.
Proof.
  induction l as [|y r IH]; simpl; [discriminate|].
  destruct (f y) as [b|e'] eqn:Hy; simpl.
  - destruct (for_each f r) as [bs|e''] eqn:Hr; simpl; [discriminate|].
    intros [= ->]. destruct (IH eq_refl) as (x & Hx & Hfx); eauto.
  - intros [= ->]. eauto.
Qed.

End ForEachFacts.

(** ** Keys under insertion and deletion *)

Section KeyFacts.
Context {A : Type} (key : A -> Z).

Lemma NoDup_keys_insert (rows : list A) (x : A) :
  NoDup (map key rows) -> ~ In (key x) (map key rows) ->
  NoDup (map key (rows ++ [x])).
Proof.
  induction rows as [|y r IH]; simpl; intros Hnd Hx.
  - constructor; [intros []|constructor].
  - inversion Hnd as [|k ks Hk Hr]; subst. constructor.
    + rewrite map_app, in_app_iff. simpl. intros [H|[H|[]]]; [auto|].
      apply Hx. left. symmetry. exact H.
    + apply IH; [exact Hr|]. intros H. apply Hx. right. exact H.
Qed.

Lemma NoDup_keys_filter (p : A -> bool) (rows : list A) :
  NoDup (map key rows) -> NoDup (map key (filter p rows)).
Proof.
  induction rows as [|y r IH]; simpl; intros Hnd; [constructor|].
  inversion Hnd as [|k ks Hk Hr]; subst.
  destruct (p y); simpl; [|auto].
  constructor; [|auto].
  rewrite in_map_iff. intros (z & Hz & Hin). apply filter_In in Hin.
  apply Hk. rewrite <- Hz. apply in_map. tauto.
Qed.

End KeyFacts.

Lemma Forall2_map_r {A B : Type} (R : A -> B -> Prop) (g : A -> B) (l : list A) :
  (forall x, In x l -> R x (g x)) -> Forall2 R l (map g l).
Proof.
  induction l as [|x r IH]; simpl; intros H; constructor; auto.
Qed.

(** ** one_to_many.py *)

Module OneToManyFacts.
Import OneToMany.

Lemma find_user_Some s user_id u :
  find_user s user_id = Some u -> In u (users s) /\ User_id u = user_id.
Proof.
  intros H. apply first_filter_Some in H. destruct H as [Hin Hid].
  split; [exact Hin|]. apply Z.eqb_eq. exact Hid.
Qed.


Lemma find_order_Some s order_id o :
  find_order s order_id = Some o -> In o (orders s) /\ Order_id o = order_id.
Proof.
  intros H. apply first_filter_Some in H. destruct H as [Hin Hid].
  split; [exact Hin|]. apply Z.eqb_eq. exact Hid.
Qed.

(** *** The writes keep the store consistent *)

Lemma empty_ok : db_ok empty.
Proof. constructor; simpl; [constructor|constructor|intros o []]. Qed.

Lemma create_user_ok s username email :
  db_ok s -> db_ok (fst (create_user s username email)).
Proof.
  intros [Hu Ho Hfk]. unfold create_user.
  destruct (existsb _ (users s)); simpl; [constructor; assumption|].
  constructor; simpl.
  - apply NoDup_keys_insert; [exact Hu|]. simpl. apply next_id_fresh.
  - exact Ho.
  - intros o Hin. rewrite map_app, in_app_iff. left. auto.
Qed.

Lemma create_order_for_user_ok s user_id order :
  db_ok s -> db_ok (fst (create_order_for_user s user_id order)).
Proof.
  intros [Hu Ho Hfk]. unfold create_order_for_user.
  destruct (find_user s user_id) as [user|] eqn:E; simpl;
    [|constructor; assumption].
  apply find_user_Some in E. destruct E as [Hin Hid].
  constructor; simpl.
  - exact Hu.
  - apply NoDup_keys_insert; [exact Ho|]. simpl. apply next_id_fresh.
  - intros o Ho'. apply in_app_iff in Ho'. destruct Ho' as [Ho'|[<-|[]]]; [auto|].
    simpl. rewrite <- Hid. apply in_map. exact Hin.
Qed.

(** An order of the deleted user does not survive the cascade. *)
Lemma cascade_removes s user o :
  In o (orders s) -> Order_user_id o = User_id user ->
  existsb (fun c => Order_id c =? Order_id o) (User_orders s user) = true.
Proof.
  intros Hin Hfk. apply existsb_exists. exists o. split.
  - unfold User_orders. apply filter_In. split; [exact Hin|].
    apply Z.eqb_eq. exact Hfk.
  - apply Z.eqb_refl.
Qed.

Lemma delete_user_ok s user_id :
  db_ok s -> db_ok (fst (delete_user s user_id)).
Proof.
  intros [Hu Ho Hfk]. unfold delete_user.
  destruct (find_user s user_id) as [user|] eqn:E; simpl;
    [|constructor; assumption].
  constructor; simpl.
  - apply NoDup_keys_filter. exact Hu.
  - apply NoDup_keys_filter. exact Ho.
  - intros o Hin. apply filter_In in Hin. destruct Hin as [Hin Hkeep].
    specialize (Hfk o Hin). apply in_map_iff in Hfk.
    destruct Hfk as (u & Hid & Hu'). rewrite <- Hid.
    apply in_map. apply filter_In. split; [exact Hu'|].
    destruct (Z.eqb_spec (User_id u) (User_id user)) as [Eq|]; [|reflexivity].
    rewrite (cascade_removes s user o Hin) in Hkeep by congruence.
    discriminate.
Qed.

Lemma handle_ok s r : db_ok s -> db_ok (handle s r).
Proof.
  destruct r; simpl;
    [apply create_user_ok|apply delete_user_ok|apply create_order_for_user_ok].
Qed.

Lemma fold_handle_ok rs : forall s, db_ok s -> db_ok (fold_left handle rs s).
Proof.
  induction rs as [|r rs IH]; simpl; intros s Hs; [exact Hs|].
  apply IH. apply handle_ok. exact Hs.
Qed.

(** Every store the API leads to from the empty one is consistent. *)
Lemma reachable_ok s : reachable s -> db_ok s.
Proof. intros [rs ->]. apply fold_handle_ok. apply empty_ok. Qed.


(** *** Deleting a user *)



(** *** Creating an order *)



(** *** Reading orders *)




(** *** Listing users *)

(** C9 (as the code has it).  [read_users] returns one payload per stored
    user, in order, with the user's [id], [username] and [email]; no
    payload carries an [orders] entry. *)
Theorem read_users_columns_only (s : db) :
  exists l, read_users s = Return l /\
            Forall2 (fun u p => payload_id p = User_id u /\
                                payload_username p = User_username u /\
                                payload_email p = User_email u /\
                                payload_orders p = None)
                    (users s) l.
Proof.
  unfold read_users. eexists. split; [reflexivity|].
  apply Forall2_map_r. intros u _. simpl. auto.
Qed.

(** C9 as stated fails: alice has an order, and her entry in the list has
    no [orders]. *)
Lemma read_users_omits_orders :
  User_orders alice_with_book
    {| User_id := 1; User_username := "alice"; User_email := "a@x.com" |} <> []
  /\
  ~ (exists l, read_users alice_with_book = Return l /\
               Forall (fun p => exists os, payload_orders p = Some os) l).
Proof.
  split; [discriminate|].
  intros (l & E & H). unfold read_users in E. simpl in E.
  injection E as <-. inversion H as [|p r (os & Hos) _]; subst.
  discriminate.
Qed.

End OneToManyFacts.

(** ** one_to_one.py *)

Module OneToOneFacts.
Import OneToOne.

Lemma find_user_row s user_id u :
  find_user s user_id = Some u -> In u (users s) /\ User_id u = user_id.
Proof.
  intros H. apply first_filter_Some in H. destruct H as [Hin Hid].
  split; [exact Hin|]. apply Z.eqb_eq. exact Hid.
Qed.

Lemma option_Z_eqb_true a b : option_Z_eqb a b = true <-> a = Some b.
Proof.
  destruct a as [x|]; simpl; [|split; discriminate].
  rewrite Z.eqb_eq. split; congruence.
Qed.

(** *** References from the profile table *)

Lemma references_app ps qs : references (ps ++ qs) = references ps ++ references qs.
Proof. unfold references. apply flat_map_app. Qed.

Lemma references_In ps i :
  In i (references ps) <-> exists p, In p ps /\ Profile_user_id p = Some i.
Proof.
  unfold references. rewrite in_flat_map. split.
  - intros (p & Hp & Hi). exists p. split; [exact Hp|].
    destruct (Profile_user_id p); simpl in Hi; [|contradiction].
    destruct Hi as [->|[]]. reflexivity.
  - intros (p & Hp & E). exists p. split; [exact Hp|]. rewrite E. left. reflexivity.
Qed.

(** The uniqueness test of an insert. *)
Lemma unique_check ps i :
  existsb (fun p => option_Z_eqb (Profile_user_id p) i) ps = false <->
  ~ In i (references ps).
Proof.
  rewrite references_In. split.
  - intros H (p & Hp & E).
    assert (existsb (fun p => option_Z_eqb (Profile_user_id p) i) ps = true).
    { apply existsb_exists. exists p. split; [exact Hp|].
      apply option_Z_eqb_true. exact E. }
    congruence.
  - intros H. destruct (existsb _ ps) eqn:E; [|reflexivity].
    exfalso. apply H. apply existsb_exists in E. destruct E as (p & Hp & E).
    exists p. split; [exact Hp|]. apply option_Z_eqb_true. exact E.
Qed.

Lemma no_reference_no_profile ps i :
  ~ In i (references ps) ->
  first (filter (fun p => option_Z_eqb (Profile_user_id p) i) ps) = None.
Proof.
  intros H. apply first_filter_None. intros p Hp.
  destruct (option_Z_eqb (Profile_user_id p) i) eqn:E; [|reflexivity].
  exfalso. apply H. apply references_In. exists p. split; [exact Hp|].
  apply option_Z_eqb_true. exact E.
Qed.

Lemma references_without i ps :
  references (map (without_reference i) ps)
  = filter (fun j => negb (j =? i)) (references ps).
Proof.
  induction ps as [|p r IH]; simpl; [reflexivity|].
  unfold without_reference at 1.
  destruct (Profile_user_id p) as [j|] eqn:E; simpl.
  - destruct (Z.eqb_spec j i) as [->|Hne]; simpl.
    + exact IH.
    + rewrite E. simpl. rewrite IH. reflexivity.
  - rewrite E. simpl. exact IH.
Qed.

Lemma ids_without i ps :
  map Profile_id (map (without_reference i) ps) = map Profile_id ps.
Proof.
  rewrite map_map. apply map_ext. intros p. unfold without_reference.
  destruct (option_Z_eqb _ i); reflexivity.
Qed.

(** With the keys in place, clearing the reference of the loaded child is
    clearing every reference to the user. *)
Lemma dissociate_child ps child i :
  NoDup (map Profile_id ps) -> NoDup (references ps) ->
  In child ps -> Profile_user_id child = Some i ->
  map (fun p => if Profile_id p =? Profile_id child then dissociate p else p) ps
  = map (without_reference i) ps.
Proof.
  intros Hpk Hun Hin Hc. apply map_ext_in. intros p Hp.
  unfold without_reference.
  enough (E : (Profile_id p =? Profile_id child)
              = option_Z_eqb (Profile_user_id p) i) by (rewrite E; reflexivity).
  revert Hpk Hun Hin Hp.
  induction ps as [|q r IH]; simpl; [intros _ _ []|].
  intros Hpk Hun Hin Hp.
  inversion Hpk as [|k ks Hk Hr]; subst.
  assert (Hun' : NoDup (references r)).
  { destruct (Profile_user_id q); simpl in Hun; [|exact Hun].
    inversion Hun; assumption. }
  destruct Hin as [->|Hin]; destruct Hp as [->|Hp].
  - rewrite Z.eqb_refl, Hc. simpl. rewrite Z.eqb_refl. reflexivity.
  - rewrite Hc in Hun. simpl in Hun. inversion Hun as [|j js Hj _]; subst.
    destruct (Z.eqb_spec (Profile_id p) (Profile_id child)) as [E|_].
    + exfalso. apply Hk. rewrite <- E. apply in_map. exact Hp.
    + symmetry. destruct (option_Z_eqb (Profile_user_id p) i) eqn:E; [|reflexivity].
      exfalso. apply Hj. apply references_In. exists p. split; [exact Hp|].
      apply option_Z_eqb_true. exact E.
  - destruct (Z.eqb_spec (Profile_id p) (Profile_id child)) as [E|_].
    + exfalso. apply Hk. rewrite E. apply in_map. exact Hin.
    + symmetry. destruct (option_Z_eqb (Profile_user_id p) i) eqn:E; [|reflexivity].
      exfalso. apply option_Z_eqb_true in E. rewrite E in Hun. simpl in Hun.
      inversion Hun as [|j js Hj _]; subst. apply Hj.
      apply references_In. exists child. auto.
  - apply IH; assumption.
Qed.

Lemma references_set_bio (g : Profile -> bool) bio ps :
  references (map (fun p => if g p then set_bio p bio else p) ps) = references ps.
Proof.
  induction ps as [|p r IH]; simpl; [reflexivity|].
  rewrite IH. destruct (g p); reflexivity.
Qed.

Lemma without_absent_reference i ps :
  ~ In i (references ps) -> map (without_reference i) ps = ps.
Proof.
  intros H. rewrite <- (map_id ps) at 2. apply map_ext_in. intros p Hp.
  unfold without_reference.
  destruct (option_Z_eqb (Profile_user_id p) i) eqn:E; [|reflexivity].
  exfalso. apply H. apply references_In. exists p. split; [exact Hp|].
  apply option_Z_eqb_true. exact E.
Qed.

(** *** What [delete_user] leaves in the profile table *)

Lemma delete_user_profiles s user_id user :
  db_ok s -> find_user s user_id = Some user ->
  profiles (fst (delete_user s user_id))
  = map (without_reference user_id) (profiles s).
Proof.
  intros [_ Hpk Hun _] E. unfold delete_user. rewrite E. simpl.
  destruct (find_user_row _ _ _ E) as [_ <-].
  destruct (User_profile s user) as [child|] eqn:Ec.
  - apply first_filter_Some in Ec. destruct Ec as [Hin Hc].
    apply option_Z_eqb_true in Hc.
    apply dissociate_child; assumption.
  - symmetry. apply without_absent_reference.
    rewrite references_In. intros (p & Hp & Hr).
    unfold User_profile in Ec. rewrite first_filter_None in Ec.
    specialize (Ec p Hp). simpl in Ec.
    apply option_Z_eqb_true in Hr. congruence.
Qed.

(** *** The writes keep the store consistent *)

Lemma empty_store_ok : db_ok empty.
Proof. constructor; simpl; try constructor. intros i []. Qed.

Lemma NoDup_snoc (l : list Z) (x : Z) : NoDup l -> ~ In x l -> NoDup (l ++ [x]).
Proof.
  intros Hl Hx. rewrite <- (map_id (l ++ [x])).
  apply NoDup_keys_insert; rewrite map_id; assumption.
Qed.

Lemma insert_user_ok s name :
  db_ok s ->
  db_ok {| users := users s ++ [ {| User_id := next_id (map User_id (users s));
                                    User_name := name |} ];
           profiles := profiles s |}.
Proof.
  intros [Hu Hpk Hun Hfk]. constructor; simpl.
  - apply NoDup_keys_insert; [exact Hu|]. apply next_id_fresh.
  - exact Hpk.
  - exact Hun.
  - rewrite map_app. apply incl_appl. exact Hfk.
Qed.

Lemma insert_profile_ok s bio user_id :
  db_ok s -> In user_id (map User_id (users s)) ->
  ~ In user_id (references (profiles s)) ->
  db_ok {| users := users s;
           profiles := profiles s
                       ++ [ {| Profile_id := next_id (map Profile_id (profiles s));
                               Profile_bio := bio;
                               Profile_user_id := Some user_id |} ] |}.
Proof.
  intros [Hu Hpk Hun Hfk] Hin Hnew. constructor; simpl.
  - exact Hu.
  - apply NoDup_keys_insert; [exact Hpk|]. apply next_id_fresh.
  - rewrite references_app. simpl. apply NoDup_snoc; assumption.
  - rewrite references_app. simpl. apply incl_app; [exact Hfk|].
    intros i [<-|[]]. exact Hin.
Qed.

Lemma create_user_keeps_ok s user : db_ok s -> db_ok (fst (create_user s user)).
Proof.
  intros Hok. unfold create_user. simpl.
  pose proof (insert_user_ok s (UserCreate_name user) Hok) as Hok1.
  destruct (existsb _ (profiles s)) eqn:E; simpl; [exact Hok1|].
  apply (insert_profile_ok _ _ _ Hok1).
  - simpl. rewrite map_app, in_app_iff. right. left. reflexivity.
  - simpl. apply unique_check. exact E.
Qed.

Lemma create_profile_keeps_ok s profile :
  db_ok s -> db_ok (fst (create_profile s profile)).
Proof.
  intros Hok. unfold create_profile.
  destruct (find_user s _) as [user|] eqn:Eu; simpl; [|exact Hok].
  destruct (existsb _ (profiles s)) eqn:E; simpl; [exact Hok|].
  apply insert_profile_ok; [exact Hok| |apply unique_check; exact E].
  apply find_user_row in Eu. destruct Eu as [Hin <-]. apply in_map. exact Hin.
Qed.

Lemma update_user_keeps_ok s user_id payload :
  db_ok s -> db_ok (fst (update_user s user_id payload)).
Proof.
  intros Hok. unfold update_user.
  destruct (find_user s user_id) as [user|]; simpl; [|exact Hok].
  destruct (find_profile_of s user_id) as [profile|]; simpl; [|exact Hok].
  destruct Hok as [Hu Hpk Hun Hfk].
  assert (Eu : forall g n, map User_id (map (fun u => if g u : bool then set_name u n else u)
                                           (users s)) = map User_id (users s)).
  { intros g n. rewrite map_map. apply map_ext. intros u. destruct (g u); reflexivity. }
  assert (Ep : forall g b, map Profile_id (map (fun p => if g p : bool then set_bio p b else p)
                                              (profiles s)) = map Profile_id (profiles s)).
  { intros g b. rewrite map_map. apply map_ext. intros p. destruct (g p); reflexivity. }
  constructor; simpl.
  - rewrite Eu. exact Hu.
  - rewrite Ep. exact Hpk.
  - rewrite references_set_bio. exact Hun.
  - rewrite references_set_bio, Eu. exact Hfk.
Qed.

Lemma delete_user_keeps_ok s user_id :
  db_ok s -> db_ok (fst (delete_user s user_id)).
Proof.
  intros Hok. destruct (find_user s user_id) as [user|] eqn:E.
  - pose proof (delete_user_profiles s user_id user Hok E) as Hp.
    destruct Hok as [Hu Hpk Hun Hfk].
    destruct (find_user_row _ _ _ E) as [_ Hid].
    unfold delete_user in *. rewrite E in *. simpl in *.
    constructor; simpl; rewrite ?Hp.
    + apply NoDup_keys_filter. exact Hu.
    + rewrite ids_without. exact Hpk.
    + rewrite references_without. apply NoDup_filter. exact Hun.
    + rewrite references_without. intros i Hi. apply filter_In in Hi.
      destruct Hi as [Hi Hne]. apply Hfk in Hi. apply in_map_iff in Hi.
      destruct Hi as (u & <- & Hin). apply in_map. apply filter_In.
      split; [exact Hin|]. rewrite Hid. exact Hne.
  - unfold delete_user. rewrite E. exact Hok.
Qed.

Lemma handle_keeps_ok s r : db_ok s -> db_ok (handle s r).
Proof.
  destruct r; simpl;
    [apply create_user_keeps_ok|apply update_user_keeps_ok
    |apply delete_user_keeps_ok|apply create_profile_keeps_ok].
Qed.

Lemma fold_handle_keeps_ok rs : forall s, db_ok s -> db_ok (fold_left handle rs s).
Proof.
  induction rs as [|r rs IH]; simpl; intros s Hs; [exact Hs|].
  apply IH. apply handle_keeps_ok. exact Hs.
Qed.

(** Every store the API leads to from the empty one is consistent. *)
Lemma reachable_store_ok s : reachable s -> db_ok s.
Proof. intros [rs ->]. apply fold_handle_keeps_ok. apply empty_store_ok. Qed.

(** A consistent store has no profile for the id the next user gets, so the
    second insert of [create_user] passes the uniqueness test. *)
Lemma next_user_unreferenced s :
  db_ok s ->
  existsb (fun p => option_Z_eqb (Profile_user_id p)
                                 (next_id (map User_id (users s))))
          (profiles s) = false.
Proof.
  intros [_ _ _ Hfk]. apply unique_check. intros H. apply Hfk in H.
  exact (next_id_fresh _ H).
Qed.

Lemma create_user_succeeds s user :
  db_ok s -> exists s' r, create_user s user = (s', Return r).
Proof.
  intros Hok. unfold create_user. simpl.
  rewrite (next_user_unreferenced s Hok). eauto.
Qed.

(** *** Creating a user with its profile *)

(** C4.  Whenever [create_user] returns a response, the response has the
    submitted [name] and [bio] and the [company] "Bharat Pvt", its [id]
    was not in use, and [read_user] on that [id] in the resulting store
    returns the same response, so the same [bio] and [company].  On a
    consistent store [create_user] does return a response. *)
Theorem create_user_then_read (s : db) (user : UserCreate) :
  (forall s' r, create_user s user = (s', Return r) ->
     UserResponse_name r = UserCreate_name user /\
     UserResponse_bio r = UserCreate_bio user /\
     UserResponse_company r = "Bharat Pvt" /\
     ~ In (UserResponse_id r) (map User_id (users s)) /\
     read_user s' (UserResponse_id r) = Return r)
  /\
  (db_ok s -> exists s' r, create_user s user = (s', Return r)).
Proof.
  split; [|apply create_user_succeeds].
  intros s' r. unfold create_user. simpl.
  destruct (existsb _ (profiles s)) eqn:E; [discriminate|].
  intros [= <- <-]. simpl. repeat split; [apply next_id_fresh|].
  unfold read_user, find_user, User_profile. simpl.
  rewrite first_filter_app_new.
  - simpl. rewrite first_filter_app_new; [reflexivity| |].
    + apply no_reference_no_profile. apply unique_check. exact E.
    + simpl. apply Z.eqb_refl.
  - apply first_filter_None. intros u Hu.
    apply Z.eqb_neq. intros Eq.
    apply (next_id_fresh (map User_id (users s))). rewrite <- Eq.
    apply in_map. exact Hu.
  - simpl. apply Z.eqb_refl.
Qed.

Lemma create_user_then_read_witness :
  db_ok empty /\
  read_user bob_created 1
  = Return {| UserResponse_id := 1; UserResponse_name := "bob";
              UserResponse_bio := "hi"; UserResponse_company := "Bharat Pvt" |}.
Proof.
  assert (Hok : db_ok empty).
  { constructor; simpl; try constructor. intros i []. }
  split; [exact Hok|].
  destruct (create_user_then_read empty bob) as [Hpost Htotal].
  destruct (Htotal Hok) as (s' & r & E).
  destruct (Hpost s' r E) as (_ & _ & _ & _ & Hread).
  unfold create_user in E. simpl in E. injection E as <- <-.
  exact Hread.
Defined.

(** C8 (as the code has it).  [create_user] has no duplicate check: it never
    answers with an HTTP error, and on a consistent store it succeeds for
    every [name] and [bio], stored before or not, adding a user under an
    [id] that was not in use. *)
Theorem create_user_accepts_duplicates (s : db) (user : UserCreate) :
  (forall status_code detail,
     snd (create_user s user) <> Raise (HTTPException status_code detail))
  /\
  (db_ok s ->
   exists s' r, create_user s user = (s', Return r) /\
                ~ In (UserResponse_id r) (map User_id (users s)) /\
                users s' = users s ++ [ {| User_id := UserResponse_id r;
                                           User_name := UserCreate_name user |} ]).
Proof.
  split.
  - intros c d. unfold create_user. simpl.
    destruct (existsb _ (profiles s)); simpl; discriminate.
  - intros Hok. unfold create_user. simpl.
    rewrite (next_user_unreferenced s Hok). eexists. eexists.
    split; [reflexivity|]. simpl. split; [apply next_id_fresh|reflexivity].
Qed.

Lemma create_user_accepts_duplicates_witness :
  db_ok bob_created /\
  exists s' r, create_user bob_created bob = (s', Return r).
Proof.
  assert (Hok : db_ok bob_created).
  { constructor; simpl.
    - constructor; [intros []|constructor].
    - constructor; [intros []|constructor].
    - constructor; [intros []|constructor].
    - intros i Hi. exact Hi. }
  split; [exact Hok|].
  destruct (create_user_accepts_duplicates bob_created bob) as [_ H].
  destruct (H Hok) as (s' & r & E & _). eauto.
Defined.

(** C8 as stated fails: bob is stored, and submitting bob again is answered
    with a response for a second user, not with a conflict. *)
Lemma duplicate_user_is_created :
  In {| User_id := 1; User_name := "bob" |} (users bob_created) /\
  snd (create_user bob_created bob)
  = Return {| UserResponse_id := 2; UserResponse_name := "bob";
              UserResponse_bio := "hi"; UserResponse_company := "Bharat Pvt" |} /\
  ~ (exists detail,
       snd (create_user bob_created bob) = Raise (HTTPException 409 detail)).
Proof.
  split; [left; reflexivity|]. split; [reflexivity|].
  intros [d H]. discriminate H.
Qed.

(** *** A user without a profile *)

(** C3 (what the code does).  For a stored user without a profile row,
    [read_user] answers 404 "Profile not found", which is not the answer for
    an absent user; [read_users] builds [UserResponse(..., bio=None)] for
    that user and raises [ValidationError], returning no list. *)
Theorem user_without_profile (s : db) (user_id : Z) (user : User) :
  find_user s user_id = Some user ->
  User_profile s user = None ->
  read_user s user_id = Raise (HTTPException 404 "Profile not found") /\
  HTTPException 404 "Profile not found" <> HTTPException 404 "User not found" /\
  read_users s = Raise ValidationError.
Proof.
  intros Eu Ep. repeat split.
  - unfold read_user. rewrite Eu, Ep. reflexivity.
  - discriminate.
  - unfold read_users. apply for_each_Raise with (x := user).
    + apply find_user_row in Eu. tauto.
    + rewrite Ep. reflexivity.
    + intros y e' _. unfold UserResponse_init.
      destruct (match User_profile s y with
                | Some profile => Profile_bio profile
                | None => None
                end); [discriminate|]. intros [= <-]. reflexivity.
Qed.

Lemma user_without_profile_witness :
  find_user bob_without_profile 1 = Some {| User_id := 1; User_name := "bob" |} /\
  User_profile bob_without_profile {| User_id := 1; User_name := "bob" |} = None /\
  read_users bob_without_profile = Raise ValidationError.
Proof.
  split; [reflexivity|]. split; [reflexivity|].
  apply (user_without_profile bob_without_profile 1
           {| User_id := 1; User_name := "bob" |} eq_refl eq_refl).
Defined.

(** *** Updating a user *)



(** *** Deleting a user *)




End OneToOneFacts.

(** ** The two list handlers with a test against [None] *)

(** The handler that tests the list for emptiness does answer 404 on the
    empty store. *)
Lemma read_all_profile1_empty :
  OneToOne.read_all_profile1 OneToOne.empty
  = Raise (HTTPException 404 "No profiles found").
Proof. reflexivity. Qed.

(** C10.  On the empty stores [read_order_list] and [read_all_profile]
    return the empty list.  On no store does either of them answer with an
    HTTP error: [all] gives a list, never [None], so the branch that raises
    404 is not taken. *)
Theorem list_handlers_never_not_found :
  OneToMany.read_order_list OneToMany.empty = Return [] /\
  OneToOne.read_all_profile OneToOne.empty = Return [] /\
  (forall (A : Type) (rows : list A), all rows <> None) /\
  (forall s status_code detail,
     OneToMany.read_order_list s <> Raise (HTTPException status_code detail)) /\
  (forall s status_code detail,
     OneToOne.read_all_profile s <> Raise (HTTPException status_code detail)).
Proof.
  split; [reflexivity|]. split; [reflexivity|]. split; [discriminate|]. split.
  - intros s c d. unfold OneToMany.read_order_list, all.
    destruct (for_each _ (OneToMany.orders s)) as [l|e] eqn:E1; simpl.
    + intros E2. apply for_each_exception in E2. destruct E2 as (x & _ & Hx).
      unfold OneToMany.validate_OrderResponse in Hx.
      destruct (OneToMany.attr_username x); discriminate.
    + intros [= ->]. apply for_each_exception in E1. destruct E1 as (o & _ & Ho).
      destruct (OneToMany.Order_user s o); discriminate.
  - intros s c d. unfold OneToOne.read_all_profile, all. intros E.
    apply for_each_exception in E. destruct E as (p & _ & Hp).
    unfold OneToOne.validate_ProfileResponse in Hp.
    destruct (OneToOne.Profile_bio p), (OneToOne.Profile_user_id p); discriminate.
Qed.

(** * Further properties of the handlers *)

Section MoreKeyFacts.
Context {A K : Type} (key : A -> K).

Lemma NoDup_map_insert (rows : list A) (x : A) :
  NoDup (map key rows) -> ~ In (key x) (map key rows) ->
  NoDup (map key (rows ++ [x])).
Proof.
  intros Hnd Hx. rewrite map_app. simpl.
  induction (map key rows) as [|k ks IH]; simpl.
  - constructor; [intros []|constructor].
  - inversion Hnd as [|k' ks' Hk Hks]; subst. constructor.
    + rewrite in_app_iff. intros [H|[H|[]]]; [exact (Hk H)|].
      apply Hx. left. symmetry. exact H.
    + apply IH; [exact Hks|]. intros H. apply Hx. right. exact H.
Qed.

Lemma NoDup_map_filter (p : A -> bool) (rows : list A) :
  NoDup (map key rows) -> NoDup (map key (filter p rows)).
Proof.
  induction rows as [|y r IH]; simpl; intros Hnd; [constructor|].
  inversion Hnd as [|k ks Hk Hr]; subst.
  destruct (p y); simpl; [|exact (IH Hr)].
  constructor; [|exact (IH Hr)].
  intros H. apply Hk. apply in_map_iff in H. destruct H as (z & Hz & Hin).
  apply filter_In in Hin. rewrite <- Hz. apply in_map. tauto.
Qed.

(** Two stored rows with the same key are the same row. *)
Lemma NoDup_map_same_key (rows : list A) (a b : A) :
  NoDup (map key rows) -> In a rows -> In b rows -> key a = key b -> a = b.
Proof.
  induction rows as [|y r IH]; simpl; [intros _ []|].
  intros Hnd Ha Hb E. inversion Hnd as [|k ks Hk Hr]; subst.
  destruct Ha as [->|Ha]; destruct Hb as [->|Hb].
  - reflexivity.
  - exfalso. apply Hk. rewrite E. apply in_map. exact Hb.
  - exfalso. apply Hk. rewrite <- E. apply in_map. exact Ha.
  - apply IH; assumption.
Qed.

End MoreKeyFacts.

(** A query over rows rewritten by an update that does not touch the
    column the query filters on. *)
Lemma first_filter_map {A : Type} (q : A -> bool) (f : A -> A) (rows : list A) :
  (forall x, q (f x) = q x) ->
  first (filter q (map f rows)) = option_map f (first (filter q rows)).
Proof.
  intros Hq. unfold first. induction rows as [|x r IH]; simpl; [reflexivity|].
  rewrite Hq. destruct (q x); simpl; [reflexivity|exact IH].
Qed.

(** ** one_to_many.py *)

Module OneToManyMore.
Import OneToMany OneToManyFacts.

Lemma no_conflict_check s username email :
  existsb (fun u => (User_username u =? username)%string
                    || (User_email u =? email)%string) (users s) = false <->
  (forall u, In u (users s) ->
     User_username u <> username /\ User_email u <> email).
Proof.
  split.
  - intros H u Hu.
    destruct ((User_username u =? username)%string
              || (User_email u =? email)%string) eqn:E.
    + assert (existsb (fun u => (User_username u =? username)%string
                                || (User_email u =? email)%string) (users s) = true).
      { apply existsb_exists. exists u. auto. }
      congruence.
    + apply orb_false_iff in E. destruct E as [E1 E2].
      apply String.eqb_neq in E1. apply String.eqb_neq in E2. auto.
  - intros H. destruct (existsb _ (users s)) eqn:E; [|reflexivity].
    apply existsb_exists in E. destruct E as (u & Hu & E).
    destruct (H u Hu) as [H1 H2]. apply orb_true_iff in E.
    destruct E as [E|E]; apply String.eqb_eq in E; contradiction.
Qed.



(** *** Creating and reading a user *)



(** X2.  [create_user] with the [username] or the [email] of a stored user
    raises [IntegrityError] and writes nothing. *)
Theorem create_user_conflict (s : db) (username email : string) :
  (exists u, In u (users s) /\
             (User_username u = username \/ User_email u = email)) ->
  create_user s username email = (s, Raise IntegrityError).
Proof.
  intros (u & Hu & Hdup). unfold create_user.
  destruct (existsb _ (users s)) eqn:E; [reflexivity|].
  apply no_conflict_check with (u := u) in E; [|exact Hu]. tauto.
Qed.

Lemma create_user_conflict_witness :
  (exists u, In u (users alice_with_book) /\
             (User_username u = "alice" \/ User_email u = "other@x.com")) /\
  create_user alice_with_book "alice" "other@x.com"
  = (alice_with_book, Raise IntegrityError).
Proof.
  assert (H : exists u, In u (users alice_with_book) /\
                (User_username u = "alice" \/ User_email u = "other@x.com")).
  { exists {| User_id := 1; User_username := "alice"; User_email := "a@x.com" |}.
    split; [left; reflexivity|left; reflexivity]. }
  split; [exact H|].
  exact (create_user_conflict alice_with_book "alice" "other@x.com" H).
Defined.

(** *** What holds of every store the API leads to *)

Lemma create_user_keeps_names s username email :
  names_unique s -> names_unique (fst (create_user s username email)).
Proof.
  intros [Hn He]. unfold create_user.
  destruct (existsb _ (users s)) eqn:E; simpl; [constructor; assumption|].
  rewrite no_conflict_check in E.
  constructor; simpl; apply NoDup_map_insert; try assumption; simpl.
  - intros H. apply in_map_iff in H. destruct H as (u & Hu & Hin).
    destruct (E u Hin). contradiction.
  - intros H. apply in_map_iff in H. destruct H as (u & Hu & Hin).
    destruct (E u Hin). contradiction.
Qed.

Lemma handle_keeps_names s r : names_unique s -> names_unique (handle s r).
Proof.
  destruct r as [username email|user_id|user_id order]; simpl.
  - apply create_user_keeps_names.
  - intros [Hn He]. unfold delete_user.
    destruct (find_user s user_id); simpl; [|constructor; assumption].
    constructor; simpl; apply NoDup_map_filter; assumption.
  - intros [Hn He]. unfold create_order_for_user.
    destruct (find_user s user_id); simpl; constructor; assumption.
Qed.

(** X3.  Every store reached from the empty one through POST /users/,
    DELETE /users/{user_id} and POST /users/{user_id}/orders/ has distinct
    user ids, distinct order ids, distinct usernames, distinct emails, and
    no order whose [user_id] is not the id of a stored user. *)
Theorem reachable_store_invariants (s : db) :
  reachable s ->
  NoDup (map User_id (users s)) /\
  NoDup (map Order_id (orders s)) /\
  NoDup (map User_username (users s)) /\
  NoDup (map User_email (users s)) /\
  (forall o, In o (orders s) -> exists u, In u (users s) /\
                                          User_id u = Order_user_id o).
Proof.
  intros [rs ->]. unfold run.
  assert (H : forall s0, db_ok s0 -> names_unique s0 ->
                db_ok (fold_left handle rs s0)
                /\ names_unique (fold_left handle rs s0)).
  { induction rs as [|r rs IH]; simpl; intros s0 Hok Hn; [auto|].
    apply IH; [apply handle_ok|apply handle_keeps_names]; assumption. }
  destruct (H empty) as [[Hu Ho Hfk] [Hn He]].
  - apply empty_ok.
  - constructor; constructor.
  - repeat split; try assumption.
    intros o Hin. specialize (Hfk o Hin). apply in_map_iff in Hfk.
    destruct Hfk as (u & Hid & Hu'). eauto.
Qed.

Lemma reachable_store_invariants_witness :
  reachable alice_with_book /\
  NoDup (map User_username (users alice_with_book)).
Proof.
  assert (H : reachable alice_with_book).
  { exists [POST_users "alice" "a@x.com"; POST_users_orders 1 book]. reflexivity. }
  split; [exact H|].
  destruct (reachable_store_invariants alice_with_book H) as (_ & _ & Hn & _).
  exact Hn.
Defined.



(** *** What [delete_user] leaves *)

(** X5.  On a consistent store, a successful [delete_user] leaves, in their
    order, exactly the users with another id and exactly the orders whose
    [user_id] is another id. *)
Theorem delete_user_frame (s : db) (user_id : Z) (user : User) :
  db_ok s ->
  find_user s user_id = Some user ->
  users (fst (delete_user s user_id))
  = filter (fun u => negb (User_id u =? user_id)) (users s) /\
  orders (fst (delete_user s user_id))
  = filter (fun o => negb (Order_user_id o =? user_id)) (orders s).
Proof.
  intros Hok E. unfold delete_user. rewrite E. simpl.
  destruct (find_user_Some _ _ _ E) as [_ Hid]. rewrite Hid. split; [reflexivity|].
  apply filter_ext_in. intros o Ho. f_equal.
  destruct (Z.eqb_spec (Order_user_id o) user_id) as [Eo|Hne].
  - apply cascade_removes; [exact Ho|]. congruence.
  - destruct (existsb _ (User_orders s user)) eqn:Ex; [|reflexivity].
    exfalso. apply existsb_exists in Ex. destruct Ex as (c & Hc & Ec).
    apply Z.eqb_eq in Ec. unfold User_orders in Hc. apply filter_In in Hc.
    destruct Hc as [Hc Hfk]. apply Z.eqb_eq in Hfk.
    assert (c = o).
    { apply (NoDup_map_same_key Order_id (orders s)); try assumption.
      exact (orders_pk s Hok). }
    subst c. apply Hne. congruence.
Qed.

Lemma delete_user_frame_witness :
  db_ok alice_with_book /\
  find_user alice_with_book 1
  = Some {| User_id := 1; User_username := "alice"; User_email := "a@x.com" |} /\
  orders (fst (delete_user alice_with_book 1)) = [].
Proof.
  assert (Hok : db_ok alice_with_book).
  { constructor; simpl.
    - constructor; [intros []|constructor].
    - constructor; [intros []|constructor].
    - intros o [<-|[]]. simpl. left. reflexivity. }
  split; [exact Hok|]. split; [reflexivity|].
  destruct (delete_user_frame alice_with_book 1 _ Hok eq_refl) as [_ Ho].
  rewrite Ho. reflexivity.
Defined.




End OneToManyMore.

(** ** one_to_one.py *)

Module OneToOneMore.
Import OneToOne OneToOneFacts.

Lemma In_user_ids s i :
  In i (map User_id (users s)) -> exists u, find_user s i = Some u.
Proof.
  intros Hin. destruct (find_user s i) as [u|] eqn:E; [eauto|].
  exfalso. unfold find_user in E. rewrite first_filter_None in E.
  apply in_map_iff in Hin. destruct Hin as (u & Hu & Hin).
  specialize (E u Hin). simpl in E. rewrite Hu, Z.eqb_refl in E. discriminate.
Qed.

Lemma referenced_has_profile ps i :
  In i (references ps) ->
  exists p, first (filter (fun p => option_Z_eqb (Profile_user_id p) i) ps) = Some p
            /\ In p ps /\ Profile_user_id p = Some i.
Proof.
  intros Hin.
  destruct (first (filter (fun p => option_Z_eqb (Profile_user_id p) i) ps))
    as [p|] eqn:E.
  - exists p. split; [reflexivity|]. apply first_filter_Some in E.
    destruct E as [Hp E]. apply option_Z_eqb_true in E. auto.
  - exfalso. rewrite first_filter_None in E. apply references_In in Hin.
    destruct Hin as (p & Hp & Hr). specialize (E p Hp). simpl in E.
    apply option_Z_eqb_true in Hr. congruence.
Qed.

(** *** The writes keep every user with a profile *)

Lemma create_user_keeps_full s user : db_full s -> db_full (fst (create_user s user)).
Proof.
  intros [Hok Hhave Hbio]. constructor.
  - apply create_user_keeps_ok. exact Hok.
  - unfold create_user. simpl. rewrite (next_user_unreferenced s Hok). simpl.
    rewrite map_app, references_app. simpl.
    intros i Hi. apply in_app_iff in Hi. apply in_app_iff.
    destruct Hi as [Hi|Hi]; [left; apply Hhave; exact Hi|right; exact Hi].
  - unfold create_user. simpl. rewrite (next_user_unreferenced s Hok). simpl.
    intros p Hp. apply in_app_iff in Hp. destruct Hp as [Hp|[<-|[]]].
    + apply Hbio. exact Hp.
    + discriminate.
Qed.

Lemma update_user_keeps_full s user_id payload :
  db_full s -> db_full (fst (update_user s user_id payload)).
Proof.
  intros [Hok Hhave Hbio]. constructor.
  - apply update_user_keeps_ok. exact Hok.
  - unfold update_user.
    destruct (find_user s user_id) as [user|]; simpl; [|exact Hhave].
    destruct (find_profile_of s user_id) as [profile|]; simpl; [|exact Hhave].
    rewrite references_set_bio.
    replace (map User_id (map _ (users s))) with (map User_id (users s));
      [exact Hhave|].
    rewrite map_map. apply map_ext. intros u.
    destruct (User_id u =? User_id user); reflexivity.
  - unfold update_user.
    destruct (find_user s user_id) as [user|]; simpl; [|exact Hbio].
    destruct (find_profile_of s user_id) as [profile|]; simpl; [|exact Hbio].
    intros p Hp. apply in_map_iff in Hp. destruct Hp as (q & <- & Hq).
    destruct (Profile_id q =? Profile_id profile); [discriminate|].
    apply Hbio. exact Hq.
Qed.

Lemma delete_user_keeps_full s user_id :
  db_full s -> db_full (fst (delete_user s user_id)).
Proof.
  intros [Hok Hhave Hbio]. constructor.
  - apply delete_user_keeps_ok. exact Hok.
  - destruct (find_user s user_id) as [user|] eqn:E.
    + rewrite (delete_user_profiles s user_id user Hok E), references_without.
      destruct (find_user_row _ _ _ E) as [_ Hid].
      unfold delete_user. rewrite E. simpl. rewrite Hid.
      intros i Hi. apply in_map_iff in Hi. destruct Hi as (u & <- & Hu).
      apply filter_In in Hu. destruct Hu as [Hu Hne].
      apply filter_In. split; [|exact Hne].
      apply Hhave. apply in_map. exact Hu.
    + unfold delete_user. rewrite E. exact Hhave.
  - destruct (find_user s user_id) as [user|] eqn:E.
    + rewrite (delete_user_profiles s user_id user Hok E).
      intros p Hp. apply in_map_iff in Hp. destruct Hp as (q & <- & Hq).
      unfold without_reference.
      destruct (option_Z_eqb (Profile_user_id q) user_id); simpl;
        apply Hbio; exact Hq.
    + unfold delete_user. rewrite E. exact Hbio.
Qed.

Lemma create_profile_keeps_full s profile :
  db_full s -> db_full (fst (create_profile s profile)).
Proof.
  intros [Hok Hhave Hbio]. constructor.
  - apply create_profile_keeps_ok. exact Hok.
  - unfold create_profile.
    destruct (find_user s _) as [user|]; simpl; [|exact Hhave].
    destruct (existsb _ (profiles s)); simpl; [exact Hhave|].
    rewrite references_app. apply incl_appl. exact Hhave.
  - unfold create_profile.
    destruct (find_user s _) as [user|]; simpl; [|exact Hbio].
    destruct (existsb _ (profiles s)); simpl; [exact Hbio|].
    intros p Hp. apply in_app_iff in Hp. destruct Hp as [Hp|[<-|[]]].
    + apply Hbio. exact Hp.
    + discriminate.
Qed.

Lemma reachable_full s : reachable s -> db_full s.
Proof.
  intros [rs ->]. unfold run.
  assert (H : forall s0, db_full s0 -> db_full (fold_left handle rs s0)).
  { induction rs as [|r rs IH]; simpl; intros s0 H0; [exact H0|].
    apply IH. destruct r; simpl;
      [apply create_user_keeps_full|apply update_user_keeps_full
      |apply delete_user_keeps_full|apply create_profile_keeps_full]; exact H0. }
  apply H. constructor.
  - apply empty_store_ok.
  - intros i [].
  - intros p [].
Qed.

(** In a store where every user has a profile with a bio, the response for
    a user is determined. *)
Lemma full_user_response s u :
  db_full s -> In u (users s) ->
  exists p b, User_profile s u = Some p /\ In p (profiles s) /\
              Profile_user_id p = Some (User_id u) /\ Profile_bio p = Some b.
Proof.
  intros [_ Hhave Hbio] Hu.
  destruct (referenced_has_profile (profiles s) (User_id u)) as (p & Ep & Hp & Hr).
  { apply Hhave. apply in_map. exact Hu. }
  destruct (Profile_bio p) as [b|] eqn:Eb.
  - exists p, b. auto.
  - exfalso. exact (Hbio p Hp Eb).
Qed.

Lemma for_each_results {A B : Type} (f : A -> outcome B) (l : list A) (ys : list B) :
  for_each f l = Return ys -> Forall2 (fun x y => f x = Return y) l ys.
Proof.
  revert ys. induction l as [|x r IH]; simpl; intros ys.
  - intros [= <-]. constructor.
  - destruct (f x) as [y|e] eqn:Ex; simpl; [|discriminate].
    destruct (for_each f r) as [ys'|e] eqn:Er; simpl; [|discriminate].
    intros [= <-]. constructor; [exact Ex|]. apply IH. reflexivity.
Qed.

Lemma UserResponse_init_company id name bio r :
  UserResponse_init id name bio = Return r -> UserResponse_company r = "Bharat Pvt".
Proof.
  unfold UserResponse_init. destruct bio; [|discriminate].
  intros [= <-]. reflexivity.
Qed.


(** *** Creating and reading a profile *)



(** *** What holds of every store the API leads to *)

(** X9.  On every store reached from the empty one through the four
    writing routes, [read_users] returns a list: one response per stored
    user, in order, with the user's id and name, the bio of the user's
    profile and the company "Bharat Pvt"; and [read_user] on the id of any
    stored user returns a response for that user. *)
Theorem reachable_users_are_served (s : db) :
  reachable s ->
  (exists l, read_users s = Return l /\
             Forall2 (fun u r =>
                        UserResponse_id r = User_id u /\
                        UserResponse_name r = User_name u /\
                        UserResponse_company r = "Bharat Pvt" /\
                        exists p, User_profile s u = Some p /\
                                  Profile_bio p = Some (UserResponse_bio r))
                     (users s) l)
  /\
  (forall u, In u (users s) ->
     exists r, read_user s (User_id u) = Return r /\
               UserResponse_id r = User_id u /\
               UserResponse_name r = User_name u).
Proof.
  intros Hr. pose proof (reachable_full s Hr) as Hfull. split.
  - exists (map (fun u =>
                   {| UserResponse_id := User_id u;
                      UserResponse_name := User_name u;
                      UserResponse_bio :=
                        match User_profile s u with
                        | Some {| Profile_bio := Some b |} => b
                        | _ => ""
                        end;
                      UserResponse_company := "Bharat Pvt" |}) (users s)).
    split.
    + unfold read_users. apply for_each_Return. intros u Hu.
      destruct (full_user_response s u Hfull Hu) as (p & b & -> & _ & _ & Eb).
      destruct p as [pid pbio puid]. simpl in Eb. subst pbio. reflexivity.
    + apply Forall2_map_r. intros u Hu. simpl.
      destruct (full_user_response s u Hfull Hu) as (p & b & Ep & _ & _ & Eb).
      repeat split. exists p. split; [exact Ep|]. rewrite Ep.
      destruct p as [pid pbio puid]. simpl in Eb. subst pbio. reflexivity.
  - intros u Hu.
    destruct (full_user_response s u Hfull Hu) as (p & b & Ep & _ & _ & Eb).
    unfold read_user, find_user.
    rewrite (first_filter_key User_id (users s) u
               (users_pk s (full_ok s Hfull)) Hu).
    rewrite Ep, Eb. eexists. split; [reflexivity|]. split; reflexivity.
Qed.

Lemma reachable_users_are_served_witness :
  reachable bob_created /\
  exists l, read_users bob_created = Return l.
Proof.
  assert (H : reachable bob_created).
  { exists [POST_users bob]. reflexivity. }
  split; [exact H|].
  destruct (reachable_users_are_served bob_created H) as [(l & E & _) _].
  exists l. exact E.
Defined.



(** *** Updating a user *)

(** X11.  When a user has the id and a profile refers to it, [update_user]
    succeeds and returns the id with the submitted name and bio;
    [read_user] on the id then returns the same response.  No row is added
    or removed, users with another id are unchanged, and so are the
    profiles other than the one that was found. *)
Theorem update_user_then_read (s : db) (user_id : Z) (payload : UserCreate)
        (user : User) (profile : Profile) :
  find_user s user_id = Some user ->
  find_profile_of s user_id = Some profile ->
  exists s',
    let r := {| UserResponse_id := user_id;
                UserResponse_name := UserCreate_name payload;
                UserResponse_bio := UserCreate_bio payload;
                UserResponse_company := "Bharat Pvt" |} in
    update_user s user_id payload = (s', Return r) /\
    read_user s' user_id = Return r /\
    map User_id (users s') = map User_id (users s) /\
    map Profile_id (profiles s') = map Profile_id (profiles s) /\
    map Profile_user_id (profiles s') = map Profile_user_id (profiles s) /\
    (forall u, In u (users s) -> User_id u <> user_id -> In u (users s')) /\
    (forall p, In p (profiles s) -> Profile_id p <> Profile_id profile ->
               In p (profiles s')).
Proof.
  intros Eu Ep. unfold update_user. rewrite Eu, Ep.
  destruct (find_user_row _ _ _ Eu) as [_ Hid].
  eexists. simpl. rewrite Hid. split; [reflexivity|]. simpl.
  split; [|repeat split].
  - unfold read_user, find_user, User_profile. simpl.
    rewrite first_filter_map.
    + unfold find_user in Eu. rewrite Eu. simpl. rewrite Hid, Z.eqb_refl. simpl.
      rewrite first_filter_map.
      * unfold find_profile_of in Ep. rewrite Hid, Ep. simpl.
        rewrite Z.eqb_refl. reflexivity.
      * intros p. destruct (Profile_id p =? Profile_id profile); reflexivity.
    + intros u. destruct (User_id u =? user_id) eqn:E; simpl; exact E.
  - rewrite map_map. apply map_ext. intros u.
    destruct (User_id u =? user_id); reflexivity.
  - rewrite map_map. apply map_ext. intros p.
    destruct (Profile_id p =? Profile_id profile); reflexivity.
  - rewrite map_map. apply map_ext. intros p.
    destruct (Profile_id p =? Profile_id profile); reflexivity.
  - intros u Hu Hne. apply in_map_iff. exists u. split; [|exact Hu].
    apply Z.eqb_neq in Hne. rewrite Hne. reflexivity.
  - intros p Hp Hne. apply in_map_iff. exists p. split; [|exact Hp].
    apply Z.eqb_neq in Hne. rewrite Hne. reflexivity.
Qed.

Lemma update_user_then_read_witness :
  find_user bob_created 1 = Some {| User_id := 1; User_name := "bob" |} /\
  find_profile_of bob_created 1
  = Some {| Profile_id := 1; Profile_bio := Some "hi"; Profile_user_id := Some 1 |} /\
  read_user (fst (update_user bob_created 1
                    {| UserCreate_name := "rob"; UserCreate_bio := "hello" |})) 1
  = Return {| UserResponse_id := 1; UserResponse_name := "rob";
              UserResponse_bio := "hello"; UserResponse_company := "Bharat Pvt" |}.
Proof.
  split; [reflexivity|]. split; [reflexivity|].
  destruct (update_user_then_read bob_created 1
              {| UserCreate_name := "rob"; UserCreate_bio := "hello" |}
              _ _ eq_refl eq_refl) as (s' & E & Hread & _).
  rewrite E. exact Hread.
Defined.

(** *** After a user is deleted *)

(** X12.  On a consistent store, once a user who had a profile is deleted,
    the profile row is still stored but has no [user_id]; the
    [ProfileResponse] model requires one, so [read_profile] on that row's
    id and [read_all_profile] both raise [ValidationError]. *)
Theorem orphan_profile_is_rejected (s : db) (user_id : Z) (user : User)
        (profile : Profile) :
  db_ok s ->
  find_user s user_id = Some user ->
  User_profile s user = Some profile ->
  let s' := fst (delete_user s user_id) in
  In (dissociate profile) (profiles s') /\
  read_profile s' (Profile_id profile) = Raise ValidationError /\
  read_all_profile s' = Raise ValidationError.
Proof.
  intros Hok Eu Ep s'.
  assert (Hp : profiles s' = map (without_reference user_id) (profiles s)).
  { apply (delete_user_profiles s user_id user Hok Eu). }
  destruct (find_user_row _ _ _ Eu) as [_ Hid].
  apply first_filter_Some in Ep. destruct Ep as [Hin Href].
  rewrite Hid in Href.
  assert (Hw : without_reference user_id profile = dissociate profile).
  { unfold without_reference. rewrite Href. reflexivity. }
  assert (Hbad : validate_ProfileResponse (dissociate profile) = Raise ValidationError).
  { unfold validate_ProfileResponse. simpl.
    destruct (Profile_bio profile); reflexivity. }
  assert (Hin' : In (dissociate profile) (profiles s')).
  { rewrite Hp, <- Hw. apply in_map. exact Hin. }
  split; [exact Hin'|]. split.
  - unfold read_profile, find_profile. rewrite Hp.
    rewrite first_filter_map.
    + rewrite (first_filter_key Profile_id (profiles s) profile
                 (profiles_pk s Hok) Hin).
      simpl. rewrite Hw. exact Hbad.
    + intros p. unfold without_reference.
      destruct (option_Z_eqb (Profile_user_id p) user_id); reflexivity.
  - unfold read_all_profile, all.
    apply for_each_Raise with (x := dissociate profile); [exact Hin'|exact Hbad|].
    intros p e _. unfold validate_ProfileResponse.
    destruct (Profile_bio p), (Profile_user_id p); try discriminate;
      intros [= <-]; reflexivity.
Qed.

Lemma orphan_profile_is_rejected_witness :
  db_ok bob_created /\
  find_user bob_created 1 = Some {| User_id := 1; User_name := "bob" |} /\
  User_profile bob_created {| User_id := 1; User_name := "bob" |}
  = Some {| Profile_id := 1; Profile_bio := Some "hi"; Profile_user_id := Some 1 |} /\
  read_all_profile (fst (delete_user bob_created 1)) = Raise ValidationError.
Proof.
  assert (Hok : db_ok bob_created).
  { constructor; simpl.
    - constructor; [intros []|constructor].
    - constructor; [intros []|constructor].
    - constructor; [intros []|constructor].
    - intros i Hi. exact Hi. }
  split; [exact Hok|]. split; [reflexivity|]. split; [reflexivity|].
  destruct (orphan_profile_is_rejected bob_created 1 _ _ Hok eq_refl eq_refl)
    as (_ & _ & H).
  exact H.
Defined.


(** *** The list handlers on an empty table *)

(** X14.  [read_all_profile1] answers 404 "No profiles found" exactly when
    the profile table is empty, where [read_all_profile] returns the empty
    list; on a table with rows the two handlers give the same outcome. *)
Theorem read_all_profile1_outcome (s : db) :
  (profiles s = [] ->
     read_all_profile1 s = Raise (HTTPException 404 "No profiles found") /\
     read_all_profile s = Return []) /\
  (profiles s <> [] -> read_all_profile1 s = read_all_profile s) /\
  (read_all_profile1 s = Raise (HTTPException 404 "No profiles found") ->
     profiles s = []).
Proof.
  unfold read_all_profile1, read_all_profile, all. repeat split.
  - rewrite H. reflexivity.
  - rewrite H. reflexivity.
  - destruct (profiles s); [intros H; contradiction|reflexivity].
  - destruct (profiles s) as [|p r]; [reflexivity|].
    intros E. apply for_each_exception in E. destruct E as (x & _ & Hx).
    unfold validate_ProfileResponse in Hx.
    destruct (Profile_bio x), (Profile_user_id x); discriminate.
Qed.

Lemma read_all_profile1_outcome_witness :
  profiles bob_created <> [] /\
  read_all_profile1 bob_created
  = Return [ {| ProfileResponse_id := 1; ProfileResponse_bio := "hi";
                ProfileResponse_user_id := 1 |} ].
Proof.
  assert (H : profiles bob_created <> []) by discriminate.
  split; [exact H|].
  destruct (read_all_profile1_outcome bob_created) as (_ & Hsame & _).
  rewrite (Hsame H). reflexivity.
Defined.

(** *** The constant of the response schema *)

(** X15.  Every response that [create_user], [read_user], [update_user] or
    [read_users] returns has the company "Bharat Pvt". *)
Theorem every_response_has_company (s : db) :
  (forall user s' r, create_user s user = (s', Return r) ->
                     UserResponse_company r = "Bharat Pvt") /\
  (forall user_id r, read_user s user_id = Return r ->
                     UserResponse_company r = "Bharat Pvt") /\
  (forall user_id payload s' r, update_user s user_id payload = (s', Return r) ->
                                UserResponse_company r = "Bharat Pvt") /\
  (forall l, read_users s = Return l ->
             Forall (fun r => UserResponse_company r = "Bharat Pvt") l).
Proof.
  repeat split.
  - intros user s' r. unfold create_user. simpl.
    destruct (existsb _ (profiles s)); [discriminate|].
    intros [= _ <-]. reflexivity.
  - intros user_id r. unfold read_user.
    destruct (find_user s user_id) as [user|]; [|discriminate].
    destruct (User_profile s user) as [p|]; [|discriminate].
    apply UserResponse_init_company.
  - intros user_id payload s' r. unfold update_user.
    destruct (find_user s user_id) as [user|]; [|discriminate].
    destruct (find_profile_of s user_id) as [p|]; [|discriminate].
    intros [= _ <-]. reflexivity.
  - intros l E. unfold read_users in E. apply for_each_results in E.
    induction E as [|u r us rs Hr _ IH]; constructor; [|exact IH].
    exact (UserResponse_init_company _ _ _ _ Hr).
Qed.

Lemma every_response_has_company_witness :
  read_users bob_created
  = Return [ {| UserResponse_id := 1; UserResponse_name := "bob";
                UserResponse_bio := "hi"; UserResponse_company := "Bharat Pvt" |} ] /\
  Forall (fun r => UserResponse_company r = "Bharat Pvt")
         [ {| UserResponse_id := 1; UserResponse_name := "bob";
              UserResponse_bio := "hi"; UserResponse_company := "Bharat Pvt" |} ].
Proof.
  split; [reflexivity|].
  destruct (every_response_has_company bob_created) as (_ & _ & _ & H).
  apply H. reflexivity.
Defined.

(** *** One profile per user *)

Lemma same_reference_same_profile ps p q i :
  NoDup (references ps) -> In p ps -> In q ps ->
  Profile_user_id p = Some i -> Profile_user_id q = Some i -> p = q.
Proof.
  induction ps as [|x r IH]; simpl; [intros _ []|].
  intros Hun Hp Hq Ep Eq.
  assert (Hun' : NoDup (references r)).
  { destruct (Profile_user_id x); simpl in Hun; [|exact Hun].
    inversion Hun; assumption. }
  assert (Hx : forall y, In y r -> Profile_user_id y = Some i ->
                         Profile_user_id x = Some i -> False).
  { intros y Hy Ey Ex. rewrite Ex in Hun. simpl in Hun.
    inversion Hun as [|j js Hj _]; subst. apply Hj.
    apply references_In. exists y. auto. }
  destruct Hp as [->|Hp]; destruct Hq as [->|Hq].
  - reflexivity.
  - exfalso. exact (Hx q Hq Eq Ep).
  - exfalso. exact (Hx p Hp Ep Eq).
  - apply IH; assumption.
Qed.

(** X16.  Every store reached from the empty one through POST /users/,
    PUT /users/{user_id}, DELETE /users/{user_id} and POST /profiles/ has
    distinct user ids and distinct profile ids; every stored user has
    exactly one profile referring to it, and that profile has a bio; and
    every profile with a [user_id] refers to a stored user. *)
Theorem reachable_one_profile_per_user (s : db) :
  reachable s ->
  NoDup (map User_id (users s)) /\
  NoDup (map Profile_id (profiles s)) /\
  (forall u, In u (users s) ->
     exists p b, In p (profiles s) /\
                 Profile_user_id p = Some (User_id u) /\
                 Profile_bio p = Some b /\
                 (forall q, In q (profiles s) ->
                            Profile_user_id q = Some (User_id u) -> q = p)) /\
  (forall p i, In p (profiles s) -> Profile_user_id p = Some i ->
               exists u, In u (users s) /\ User_id u = i).
Proof.
  intros Hr. pose proof (reachable_full s Hr) as Hfull.
  destruct (full_ok s Hfull) as [Hu Hpk Hun Hfk].
  split; [exact Hu|]. split; [exact Hpk|]. split.
  - intros u Hin.
    destruct (full_user_response s u Hfull Hin) as (p & b & _ & Hp & Href & Hb).
    exists p, b. repeat split; try assumption.
    intros q Hq Eq.
    exact (same_reference_same_profile (profiles s) q p _ Hun Hq Hp Eq Href).
  - intros p i Hp Ep.
    assert (Hi : In i (map User_id (users s))).
    { apply Hfk. apply references_In. eauto. }
    apply in_map_iff in Hi. destruct Hi as (u & Hid & Hin). eauto.
Qed.

Lemma reachable_one_profile_per_user_witness :
  reachable bob_created /\ NoDup (map Profile_id (profiles bob_created)).
Proof.
  assert (H : reachable bob_created).
  { exists [POST_users bob]. reflexivity. }
  split; [exact H|].
  destruct (reachable_one_profile_per_user bob_created H) as (_ & Hpk & _).
  exact Hpk.
Defined.

End OneToOneMore.
